(** * docs/conf.py: the Sphinx configuration module of OpenGSLB

    The module is a straight-line sequence of assignments of literals to
    module-level names.  It is embedded here as
    - the values of the right-hand sides, one definition per assigned name,
      with Python lists as [list], Python dicts with string keys as
      [gmap string _], and Python strings as [string] (the characters of
      the module are all ASCII);
    - the module body [conf_py], a state-passing program over the module
      namespace, in the order of the source;
    - the fragment of Python's [re] syntax that the link-check patterns are
      written in, with [re.match] semantics (anchored at the start of the
      subject, free at its end). *)

From Stdlib Require Import String Ascii ZArith List Bool.
From stdpp Require Import base gmap strings list fin_maps.

Local Open Scope string_scope.

Set Warnings "-register-all".

(** ** Python values and the pieces of the language the module uses *)

Module Py.

(** The values that occur in the module: integers, booleans, strings,
    list displays and dict displays keyed by strings. *)
Inductive pyval : Type :=
| PyInt (z : Z)
| PyBool (b : bool)
| PyStr (s : string)
| PyList (l : list pyval)
| PyDict (d : gmap string pyval).

(** A raised exception, by the name of its class. *)
Inductive pyexn : Type :=
| PyExn (class_name : string).

Inductive result (A : Type) : Type :=
| Ok (a : A)
| Raise (e : pyexn).
Arguments Ok {A} a.
Arguments Raise {A} e.

(** A dict display [{k1: v1, ..., kn: vn}] stores its items from left to
    right, so that a later item overrides an earlier one with the same
    key. *)
Definition dict_display {V : Type} (items : list (string * V)) : gmap string V :=
  fold_left (fun d kv => <[kv.1 := kv.2]> d) items ∅.

(** [needle in hay] on strings. *)
Fixpoint str_contains (needle hay : string) : bool :=
  String.prefix needle hay
  || match hay with
     | EmptyString => false
     | String _ hay' => str_contains needle hay'
     end.

(** The module namespace (its globals) and the statements acting on it. *)
Abbreviation namespace := (gmap string pyval).

Definition stmt : Type := namespace -> result namespace.

(** [name = value] *)
Definition assign (name : string) (v : pyval) : stmt :=
  fun ns => Ok (<[name := v]> ns).

(** A block runs its statements in order; an exception raised by one of
    them ends the evaluation and is the outcome of the block. *)
Fixpoint exec_block (body : list stmt) : stmt :=
  fun ns =>
    match body with
    | [] => Ok ns
    | s :: body' =>
        match s ns with
        | Ok ns' => exec_block body' ns'
        | Raise e => Raise e
        end
    end.

End Py.

Import Py.

(** ** The fragment of [re] pattern syntax used by the link-check patterns

    Literal characters, the escape of a punctuation character, [.] and the
    postfix [*] on a single character or [.].  A pattern that uses anything
    else is not compiled ([None]). *)

Module Re.

Inductive atom : Type :=
| Lit (c : ascii)   (* this character *)
| Dot.              (* any character except a newline *)

Inductive piece : Type :=
| One (a : atom)    (* a  *)
| Star (a : atom).  (* a* *)

Inductive token : Type :=
| TAtom (a : atom)
| TStar.

Definition newline : ascii := "010"%char.

Definition in_range (lo hi c : ascii) : bool :=
  (N_of_ascii lo <=? N_of_ascii c)%N && (N_of_ascii c <=? N_of_ascii hi)%N.

Definition is_alnum (c : ascii) : bool :=
  in_range "0" "9" c || in_range "A" "Z" c || in_range "a" "z" c.

(** The characters with a meaning of their own in a pattern. *)
Definition special_chars : list ascii :=
  [".";  "^";  "$";  "*";  "+";  "?";  "{";  "}";  "[";  "]";  "\";  "|";  "(";  ")"]%char.

Definition is_special (c : ascii) : bool :=
  existsb (Ascii.eqb c) special_chars.

(** Lexing.  A backslash followed by a letter or a digit is a character
    class, an anchor or a back-reference, none of which is in the
    fragment; followed by anything else it stands for that character. *)
Fixpoint tokens (p : string) : option (list token) :=
  match p with
  | EmptyString => Some []
  | String c rest =>
      if Ascii.eqb c "\" then
        match rest with
        | EmptyString => None
        | String e rest' =>
            if is_alnum e then None
            else cons (TAtom (Lit e)) <$> tokens rest'
        end
      else if Ascii.eqb c "." then cons (TAtom Dot) <$> tokens rest
      else if Ascii.eqb c "*" then cons TStar <$> tokens rest
      else if is_special c then None
      else cons (TAtom (Lit c)) <$> tokens rest
  end.

(** Grouping an atom with the [*] that follows it.  A [*] with nothing to
    repeat, or right after another [*], is an error of the pattern. *)
Fixpoint pieces (ts : list token) : option (list piece) :=
  match ts with
  | [] => Some []
  | TStar :: _ => None
  | TAtom a :: ts' =>
      match ts' with
      | TStar :: ts'' => cons (Star a) <$> pieces ts''
      | _ => cons (One a) <$> pieces ts'
      end
  end.

(** [re.compile(p)] *)
Definition compile (p : string) : option (list piece) :=
  tokens p ≫= pieces.

Definition atom_matches (a : atom) (c : ascii) : bool :=
  match a with
  | Lit x => Ascii.eqb x c
  | Dot => negb (Ascii.eqb c newline)
  end.

(** [r.match(s) is not None]: the pattern matches some prefix of [s].
    A starred atom first takes as many characters as it can and gives
    them back one at a time. *)
Fixpoint match_here (r : list piece) (s : string) {struct r} : bool :=
  match r with
  | [] => true
  | One a :: r' =>
      match s with
      | EmptyString => false
      | String c s' => atom_matches a c && match_here r' s'
      end
  | Star a :: r' =>
      (fix star (s : string) : bool :=
         match s with
         | EmptyString => match_here r' EmptyString
         | String c s' => (atom_matches a c && star s') || match_here r' s
         end) s
  end.

(** [re.match(p, s) is not None]; a pattern outside the fragment matches
    nothing here. *)
Definition re_match (p s : string) : bool :=
  match compile p with
  | Some r => match_here r s
  | None => false
  end.

End Re.

(** ** docs/conf.py *)

(** *** Project information *)

Definition project : string := "OpenGSLB".
Definition copyright : string := "2025, Logan Ross".
Definition author : string := "Logan Ross".

(** *** General configuration *)

Definition extensions : list string :=
  [ "myst_parser";
    "sphinx.ext.autodoc";
    "sphinx.ext.viewcode";
    "sphinx_copybutton";
    "sphinx_design" ].

Definition myst_enable_extensions : list string :=
  [ "colon_fence";
    "deflist";
    "fieldlist";
    "html_admonition";
    "html_image";
    "replacements";
    "smartquotes";
    "strikethrough";
    "substitution";
    "tasklist" ].

Definition myst_heading_anchors : Z := 3.

Definition source_suffix : gmap string string :=
  dict_display
    [ (".rst", "restructuredtext");
      (".md", "markdown") ].

Definition master_doc : string := "index".

Definition exclude_patterns : list string :=
  [ "_build"; "Thumbs.db"; ".DS_Store" ].

(** *** Options for HTML output *)

Definition html_theme : string := "sphinx_rtd_theme".

Definition html_theme_options : gmap string pyval :=
  dict_display
    [ ("navigation_depth", PyInt 4);
      ("collapse_navigation", PyBool false);
      ("sticky_navigation", PyBool true);
      ("includehidden", PyBool true);
      ("titles_only", PyBool false) ].

(** *** Options for linkcheck (raw strings: the backslashes are part of
    the patterns) *)

Definition linkcheck_ignore : list string :=
  [ "http://localhost.*";
    "http://127\.0\.0\.1.*" ].

Definition suppress_warnings : list string :=
  [ "myst.header"; "ref.myst" ].

(** *** The module body *)

Definition str_list (l : list string) : pyval := PyList (PyStr <$> l).

Definition conf_py : list stmt :=
  [ assign "project" (PyStr project);
    assign "copyright" (PyStr copyright);
    assign "author" (PyStr author);
    assign "extensions" (str_list extensions);
    assign "myst_enable_extensions" (str_list myst_enable_extensions);
    assign "myst_heading_anchors" (PyInt myst_heading_anchors);
    assign "source_suffix" (PyDict (PyStr <$> source_suffix));
    assign "master_doc" (PyStr master_doc);
    assign "exclude_patterns" (str_list exclude_patterns);
    assign "html_theme" (PyStr html_theme);
    assign "html_theme_options" (PyDict html_theme_options);
    assign "linkcheck_ignore" (str_list linkcheck_ignore);
    assign "suppress_warnings" (str_list suppress_warnings) ].

(** The names the module assigns, in the order of the source. *)
Definition conf_names : list string :=
  [ "project"; "copyright"; "author"; "extensions";
    "myst_enable_extensions"; "myst_heading_anchors"; "source_suffix";
    "master_doc"; "exclude_patterns"; "html_theme"; "html_theme_options";
    "linkcheck_ignore"; "suppress_warnings" ].

(** Whether a URI is matched by one of the patterns of [linkcheck_ignore]. *)
Definition link_ignored (uri : string) : bool :=
  existsb (fun p => Re.re_match p uri) linkcheck_ignore.

(** The globals left by evaluating the module in a fresh namespace. *)
Definition conf_globals : namespace :=
  match exec_block conf_py ∅ with
  | Ok ns => ns
  | Raise _ => ∅
  end.

(** *** The markdown features as the specification lists them

    This definition follows the words of the specification, not the source:
    its nine named features, each with the MyST identifier that enables it.
    It is what [myst_enable_extensions] is compared with. *)

Inductive spec_feature : Type :=
| DefinitionLists
| FieldLists
| HtmlAdmonitions
| InlineHtmlImages
| TextSubstitutions
| SmartQuotes
| Strikethrough
| Substitutions
| TaskLists.

Definition toggle_of (f : spec_feature) : string :=
  match f with
  | DefinitionLists => "deflist"
  | FieldLists => "fieldlist"
  | HtmlAdmonitions => "html_admonition"
  | InlineHtmlImages => "html_image"
  | TextSubstitutions => "replacements"
  | SmartQuotes => "smartquotes"
  | Strikethrough => "strikethrough"
  | Substitutions => "substitution"
  | TaskLists => "tasklist"
  end.

Definition spec_features : list spec_feature :=
  [ DefinitionLists; FieldLists; HtmlAdmonitions; InlineHtmlImages;
    TextSubstitutions; SmartQuotes; Strikethrough; Substitutions; TaskLists ].

(** *** Auxiliary definitions of the proofs *)

(** The pattern that spells out the characters of [l]. *)
Fixpoint literal_pieces (l : string) : list Re.piece :=
  match l with
  | EmptyString => []
  | String c l' => Re.One (Re.Lit c) :: literal_pieces l'
  end.

(** The statements [name = value] of a list of (name, value) pairs. *)
Definition assign_all (bs : list (string * pyval)) : list stmt :=
  map (fun b => assign b.1 b.2) bs.

(** The assignments of the module as (name, value) pairs: [conf_py] is
    [assign_all conf_bindings]. *)
Definition conf_bindings : list (string * pyval) :=
  [ ("project", PyStr project);
    ("copyright", PyStr copyright);
    ("author", PyStr author);
    ("extensions", str_list extensions);
    ("myst_enable_extensions", str_list myst_enable_extensions);
    ("myst_heading_anchors", PyInt myst_heading_anchors);
    ("source_suffix", PyDict (PyStr <$> source_suffix));
    ("master_doc", PyStr master_doc);
    ("exclude_patterns", str_list exclude_patterns);
    ("html_theme", PyStr html_theme);
    ("html_theme_options", PyDict html_theme_options);
    ("linkcheck_ignore", str_list linkcheck_ignore);
    ("suppress_warnings", str_list suppress_warnings) ].

(** A namespace that is not fresh: it holds a name the module does not
    assign and a stale binding of one that it does. *)
Definition sample_namespace : namespace :=
  <["tags" := PyList []]> (<["project" := PyInt 0]> ∅).

(** A table of parser providers to instantiate the one the extension list is
    checked against: the markdown parser comes with [myst_parser], any other
    parser is taken to be built in. *)
Definition myst_only_provider (parser : string) : option string :=
  if String.eqb parser "markdown" then Some "myst_parser" else None.

(** ** Strings and patterns *)

Lemma ascii_eqb_dec (a b : ascii) :
  Ascii.eqb a b = if ascii_dec a b then true else false.
Proof.
  destruct (ascii_dec a b) as [->|Hne].
  - apply Ascii.eqb_refl.
  - by apply Ascii.eqb_neq.
Qed.

Lemma append_String (c : ascii) (a rest : string) :
  String c a +:+ rest = String c (a +:+ rest).
Proof. reflexivity. Qed.

Lemma string_prefix_app (a s : string) :
  String.prefix a s = true ↔ ∃ rest, s = a +:+ rest.
Proof.
  revert s. induction a as [|c a IH]; intros s.
  - split; [intros _; by exists s | by destruct s].
  - destruct s as [|c' s]; simpl.
    + split; [done | by intros [rest ?]].
    + destruct (ascii_dec c c') as [->|Hne].
      * rewrite IH. split; intros [rest Hrest]; exists rest;
          rewrite append_String in *; congruence.
      * split; [done | intros [rest ?]; rewrite append_String in *; congruence].
Qed.

Lemma string_prefix_trans (a b s : string) :
  String.prefix a b = true → String.prefix b s = true →
  String.prefix a s = true.
Proof.
  rewrite !string_prefix_app. intros [r1 ->] [r2 ->].
  exists (r1 +:+ r2). clear. induction a as [|c a IH]; [done |].
  rewrite !append_String. congruence.
Qed.

Lemma str_contains_prefix (needle hay : string) :
  String.prefix needle hay = true → str_contains needle hay = true.
Proof. intros H. destruct hay; simpl in *; by rewrite H. Qed.

(** [.*] at the end of a pattern matches whatever is left of the subject. *)
Lemma match_here_star_dot (s : string) :
  Re.match_here [Re.Star Re.Dot] s = true.
Proof. destruct s; simpl; [done | apply orb_true_r]. Qed.

Lemma match_here_literal (l : string) (r : list Re.piece) (s : string) :
  Re.match_here (literal_pieces l ++ r) s = true ↔
  ∃ rest, s = l +:+ rest ∧ Re.match_here r rest = true.
Proof.
  revert s. induction l as [|c l IH]; intros s.
  - simpl. split; [intros H; by exists s | by intros [rest [-> H]]].
  - destruct s as [|c' s].
    + split; [done | by intros [rest [? _]]].
    + change (Re.match_here (literal_pieces (String c l) ++ r) (String c' s))
        with (Ascii.eqb c c' && Re.match_here (literal_pieces l ++ r) s).
      rewrite andb_true_iff, Ascii.eqb_eq, IH.
      split.
      * intros [-> [rest [-> H]]]. by exists rest.
      * intros [rest [Heq H]]. rewrite append_String in Heq.
        injection Heq as -> ->. eauto.
Qed.

(** A literal followed by [.*] matches exactly the subjects that start with
    the literal. *)
Lemma match_here_literal_any (l s : string) :
  Re.match_here (literal_pieces l ++ [Re.Star Re.Dot]) s = String.prefix l s.
Proof.
  apply eq_true_iff_eq. rewrite match_here_literal, string_prefix_app.
  split.
  - intros [rest [-> _]]. by exists rest.
  - intros [rest ->]. exists rest. split; [done | apply match_here_star_dot].
Qed.

(** The pattern fragment on small inputs. *)

Example compile_escaped_dot :
  Re.compile "a\.b.*" =
  Some [Re.One (Re.Lit "a"); Re.One (Re.Lit "."); Re.One (Re.Lit "b");
        Re.Star Re.Dot].
Proof. reflexivity. Qed.

Example compile_outside_fragment :
  Re.compile "a**" = None ∧ Re.compile "*a" = None ∧ Re.compile "\d" = None ∧
  Re.compile "a|b" = None ∧ Re.compile "a\" = None.
Proof. repeat split; reflexivity. Qed.

Example star_gives_back :
  Re.re_match "a*ab" "aaab" = true ∧ Re.re_match "a*ab" "aaac" = false.
Proof. split; reflexivity. Qed.

Example escaped_dot_is_literal :
  Re.re_match "1\.0" "1.0" = true ∧ Re.re_match "1\.0" "1x0" = false ∧
  Re.re_match "1.0" "1x0" = true.
Proof. repeat split; reflexivity. Qed.

Example dot_stops_at_newline :
  Re.re_match ".*x" ("ab" +:+ String Re.newline "x") = false ∧
  Re.re_match "ab.*" ("ab" +:+ String Re.newline "x") = true.
Proof. split; reflexivity. Qed.

Example ignored_and_checked_links :
  link_ignored "http://localhost:8053/api/v1/health" = true ∧
  link_ignored "http://127.0.0.1:9090/metrics" = true ∧
  link_ignored "http://127x0.0.1/" = false ∧
  link_ignored "https://localhost/" = false ∧
  link_ignored "http://example.com/http://localhost" = false.
Proof. repeat split; reflexivity. Qed.

Lemma re_match_localhost (uri : string) :
  Re.re_match "http://localhost.*" uri = String.prefix "http://localhost" uri.
Proof. apply (match_here_literal_any "http://localhost"). Qed.

Lemma re_match_loopback (uri : string) :
  Re.re_match "http://127\.0\.0\.1.*" uri = String.prefix "http://127.0.0.1" uri.
Proof. apply (match_here_literal_any "http://127.0.0.1"). Qed.

Lemma link_ignored_prefix (uri : string) :
  link_ignored uri =
  String.prefix "http://localhost" uri || String.prefix "http://127.0.0.1" uri.
Proof.
  unfold link_ignored, linkcheck_ignore. simpl.
  by rewrite re_match_localhost, re_match_loopback, orb_false_r.
Qed.

Lemma linkcheck_ignore_elem (p : string) :
  p ∈ linkcheck_ignore ↔ p = "http://localhost.*" ∨ p = "http://127\.0\.0\.1.*".
Proof. unfold linkcheck_ignore. rewrite !elem_of_cons, elem_of_nil. tauto. Qed.

(** ** The module body *)

Lemma exec_block_assign (name : string) (v : pyval) (body : list stmt)
    (ns : namespace) :
  exec_block (assign name v :: body) ns = exec_block body (<[name := v]> ns).
Proof. reflexivity. Qed.

(** Evaluating the module in any namespace adds the bindings of
    [conf_globals] on top of what was there. *)
Lemma exec_conf_py (ns0 : namespace) :
  exec_block conf_py ns0 = Ok (conf_globals ∪ ns0).
Proof.
  unfold conf_globals, conf_py.
  rewrite !exec_block_assign. cbn [exec_block].
  by rewrite <- !insert_union_l, (left_id_L ∅ (∪)).
Qed.

(** ** The claims *)

(** Closes a goal [x ∈ [a; b; ...] ↔ x = a ∨ x = b ∨ ...]. *)
Ltac list_members := rewrite ?elem_of_cons, ?elem_of_nil; tauto.

(** Closes a decidable closed goal by evaluation. *)
Ltac by_evaluation := apply (bool_decide_unpack _); vm_compute; reflexivity.

(** C1: the source-suffix mapping has exactly two entries, ['.rst'] bound
    to ['restructuredtext'] and ['.md'] bound to ['markdown']; its set of
    keys is [{'.rst', '.md'}], so no other key is present; and this is the
    value the module binds to [source_suffix]. *)
Theorem source_suffix_two_entries :
  size source_suffix = 2%nat ∧
  source_suffix !! ".rst" = Some "restructuredtext" ∧
  source_suffix !! ".md" = Some "markdown" ∧
  dom source_suffix = {[ ".rst"; ".md" ]} ∧
  conf_globals !! "source_suffix" = Some (PyDict (PyStr <$> source_suffix)).
Proof.
  repeat split; reflexivity.
Qed.

(** C2, as stated, fails: ['colon_fence'] is enabled and is none of the
    nine features the specification lists. *)
Lemma myst_toggles_not_only_spec_features :
  ¬ (∀ t : string, t ∈ myst_enable_extensions ↔ ∃ f, toggle_of f = t).
Proof.
  intros H. destruct (proj1 (H "colon_fence")) as [f Hf].
  - unfold myst_enable_extensions. list_members.
  - by destruct f.
Qed.

(** C2, amended: the enabled markdown-extension toggles are exactly the nine
    features the specification lists together with ['colon_fence']. *)
Theorem myst_toggles_spec_features_and_colon_fence :
  ∀ t : string,
    t ∈ myst_enable_extensions ↔ t = "colon_fence" ∨ ∃ f, toggle_of f = t.
Proof.
  intros t. unfold myst_enable_extensions.
  rewrite !elem_of_cons, elem_of_nil. split.
  - intros H. repeat (destruct H as [->|H]; [| ]); try done.
    + by left.
    + right. by exists DefinitionLists.
    + right. by exists FieldLists.
    + right. by exists HtmlAdmonitions.
    + right. by exists InlineHtmlImages.
    + right. by exists TextSubstitutions.
    + right. by exists SmartQuotes.
    + right. by exists Strikethrough.
    + right. by exists Substitutions.
    + right. by exists TaskLists.
  - intros [->|[f <-]]; [tauto |]. destruct f; simpl; tauto.
Qed.

(** C3: the link-check ignore list consists of two patterns and no other;
    both compile; the first matches exactly the URLs that begin with
    ['http://localhost'] and the second exactly the URLs that begin with
    ['http://127.0.0.1']. *)
Theorem linkcheck_ignore_localhost_loopback :
  ∃ p_localhost p_loopback : string,
    linkcheck_ignore = [p_localhost; p_loopback] ∧
    is_Some (Re.compile p_localhost) ∧
    is_Some (Re.compile p_loopback) ∧
    (∀ uri, Re.re_match p_localhost uri = true ↔
            String.prefix "http://localhost" uri = true) ∧
    (∀ uri, Re.re_match p_loopback uri = true ↔
            String.prefix "http://127.0.0.1" uri = true).
Proof.
  exists "http://localhost.*", "http://127\.0\.0\.1.*".
  split; [reflexivity |].
  split; [by eexists |]. split; [by eexists |].
  split; intros uri.
  - by rewrite re_match_localhost.
  - by rewrite re_match_loopback.
Qed.

(** C4: the exclude patterns are exactly ['_build'], ['Thumbs.db'] and
    ['.DS_Store'], three entries without repetition, and this is the value
    the module binds to [exclude_patterns]. *)
Theorem exclude_patterns_exact :
  (∀ p : string,
     p ∈ exclude_patterns ↔ p = "_build" ∨ p = "Thumbs.db" ∨ p = ".DS_Store") ∧
  length exclude_patterns = 3%nat ∧
  NoDup exclude_patterns ∧
  conf_globals !! "exclude_patterns" = Some (str_list exclude_patterns).
Proof.
  split; [intros p; unfold exclude_patterns; list_members |].
  split; [reflexivity |]. split; [by_evaluation | reflexivity].
Qed.

(** C5: the theme options have exactly the five keys [navigation_depth],
    [collapse_navigation], [sticky_navigation], [includehidden] and
    [titles_only]; the first is bound to an integer and the other four to
    booleans; and the module defines a theme identifier next to them. *)
Theorem html_theme_options_five :
  dom html_theme_options =
    {[ "navigation_depth"; "collapse_navigation"; "sticky_navigation";
       "includehidden"; "titles_only" ]} ∧
  size html_theme_options = 5%nat ∧
  html_theme_options !! "navigation_depth" = Some (PyInt 4) ∧
  html_theme_options !! "collapse_navigation" = Some (PyBool false) ∧
  html_theme_options !! "sticky_navigation" = Some (PyBool true) ∧
  html_theme_options !! "includehidden" = Some (PyBool true) ∧
  html_theme_options !! "titles_only" = Some (PyBool false) ∧
  conf_globals !! "html_theme_options" = Some (PyDict html_theme_options) ∧
  conf_globals !! "html_theme" = Some (PyStr "sphinx_rtd_theme").
Proof.
  repeat split; reflexivity.
Qed.

(** C6, as stated, fails: the copyright string is ['2025, Logan Ross'],
    which does not contain ['OpenGSLB']. *)
Lemma copyright_does_not_name_project :
  ¬ (project ≠ "" ∧ copyright ≠ "" ∧ author ≠ "" ∧
     project = "OpenGSLB" ∧ str_contains "OpenGSLB" copyright = true).
Proof. intros (_ & _ & _ & _ & H). vm_compute in H. discriminate. Qed.

(** C6, amended: project name, copyright string and author string are
    bound to non-empty strings; the project name is ['OpenGSLB']; the
    copyright string names the author and not the project. *)
Theorem project_metadata :
  conf_globals !! "project" = Some (PyStr project) ∧
  conf_globals !! "copyright" = Some (PyStr copyright) ∧
  conf_globals !! "author" = Some (PyStr author) ∧
  project ≠ "" ∧ copyright ≠ "" ∧ author ≠ "" ∧
  project = "OpenGSLB" ∧
  str_contains author copyright = true ∧
  str_contains "OpenGSLB" copyright = false.
Proof.
  repeat split; (reflexivity || discriminate).
Qed.

(** C7: the suppressed warnings are exactly ['myst.header'] and
    ['ref.myst'], two entries without repetition, and this is the value the
    module binds to [suppress_warnings]. *)
Theorem suppress_warnings_exact :
  (∀ w : string, w ∈ suppress_warnings ↔ w = "myst.header" ∨ w = "ref.myst") ∧
  length suppress_warnings = 2%nat ∧
  NoDup suppress_warnings ∧
  conf_globals !! "suppress_warnings" = Some (str_list suppress_warnings).
Proof.
  split; [intros w; unfold suppress_warnings; list_members |].
  split; [reflexivity |]. split; [by_evaluation | reflexivity].
Qed.

(** C8: evaluating the module succeeds in every namespace: it never raises,
    it binds each of the thirteen names it assigns to the constant of the
    source whatever the namespace held, and it leaves every other name as
    it was. *)
Theorem conf_py_always_succeeds :
  ∀ ns0 : namespace,
    exec_block conf_py ns0 = Ok (conf_globals ∪ ns0) ∧
    dom conf_globals = list_to_set conf_names ∧
    conf_globals !! "project" = Some (PyStr project) ∧
    conf_globals !! "copyright" = Some (PyStr copyright) ∧
    conf_globals !! "author" = Some (PyStr author) ∧
    conf_globals !! "extensions" = Some (str_list extensions) ∧
    conf_globals !! "myst_enable_extensions" =
      Some (str_list myst_enable_extensions) ∧
    conf_globals !! "myst_heading_anchors" = Some (PyInt myst_heading_anchors) ∧
    conf_globals !! "source_suffix" = Some (PyDict (PyStr <$> source_suffix)) ∧
    conf_globals !! "master_doc" = Some (PyStr master_doc) ∧
    conf_globals !! "exclude_patterns" = Some (str_list exclude_patterns) ∧
    conf_globals !! "html_theme" = Some (PyStr html_theme) ∧
    conf_globals !! "html_theme_options" = Some (PyDict html_theme_options) ∧
    conf_globals !! "linkcheck_ignore" = Some (str_list linkcheck_ignore) ∧
    conf_globals !! "suppress_warnings" = Some (str_list suppress_warnings).
Proof.
  intros ns0. split; [apply exec_conf_py |].
  repeat split; reflexivity.
Qed.

(** C9: a URL matched by a pattern of the link-check ignore list begins
    with ['http://'], and a URL that begins with ['https://'] is matched by
    no pattern of the list. *)
Theorem linkcheck_ignore_plain_http_only :
  (∀ p uri : string,
     p ∈ linkcheck_ignore → Re.re_match p uri = true →
     String.prefix "http://" uri = true) ∧
  (∀ uri : string,
     String.prefix "https://" uri = true → link_ignored uri = false).
Proof.
  split.
  - intros p uri Hp H. apply linkcheck_ignore_elem in Hp as [-> | ->].
    + rewrite re_match_localhost in H.
      by apply (string_prefix_trans _ "http://localhost").
    + rewrite re_match_loopback in H.
      by apply (string_prefix_trans _ "http://127.0.0.1").
  - intros uri H. apply string_prefix_app in H as [rest ->].
    by rewrite link_ignored_prefix.
Qed.

Lemma linkcheck_ignore_plain_http_only_witness :
  (Re.re_match "http://localhost.*" "http://localhost:8053/health" = true ∧
   String.prefix "http://" "http://localhost:8053/health" = true) ∧
  (String.prefix "https://" "https://127.0.0.1:9090/metrics" = true ∧
   link_ignored "https://127.0.0.1:9090/metrics" = false).
Proof.
  split; (split; [reflexivity |]).
  - apply (proj1 linkcheck_ignore_plain_http_only "http://localhost.*").
    + apply linkcheck_ignore_elem. by left.
    + reflexivity.
  - apply (proj2 linkcheck_ignore_plain_http_only). reflexivity.
Defined.

(** ** Extensions and the parsers the source suffixes name *)

Section Parsers.

(** Which extension registers a parser: [Some ext] when the parser comes
    with the extension [ext], [None] when it is built into the
    documentation tool.  The table belongs to the tool, not to this
    module; the two facts used about it are the hypotheses below. *)
Variable provider : string → option string.
Hypothesis markdown_from_myst_parser : provider "markdown" = Some "myst_parser".
Hypothesis restructuredtext_built_in : provider "restructuredtext" = None.

(** C10: the extensions list has no duplicate entry and contains
    ['myst_parser']; the ['.md'] suffix names the ['markdown'] parser; and
    every parser named by the source-suffix mapping that comes with an
    extension has that extension enabled. *)
Theorem extensions_provide_suffix_parsers :
  NoDup extensions ∧
  "myst_parser" ∈ extensions ∧
  source_suffix !! ".md" = Some "markdown" ∧
  (∀ suffix parser ext : string,
     source_suffix !! suffix = Some parser →
     provider parser = Some ext →
     ext ∈ extensions).
Proof.
  split; [by_evaluation |]. split; [by_evaluation |].
  split; [reflexivity |].
  intros suffix parser ext Hsuffix Hprovider.
  unfold source_suffix, dict_display in Hsuffix. cbn [fold_left fst snd] in Hsuffix.
  apply lookup_insert_Some in Hsuffix as [[_ <-] | [_ Hsuffix]].
  - rewrite markdown_from_myst_parser in Hprovider.
    injection Hprovider as <-. by_evaluation.
  - apply lookup_insert_Some in Hsuffix as [[_ <-] | [_ Hsuffix]].
    + by rewrite restructuredtext_built_in in Hprovider.
    + by rewrite lookup_empty in Hsuffix.
Qed.

End Parsers.

Lemma extensions_provide_suffix_parsers_witness :
  source_suffix !! ".md" = Some "markdown" ∧
  myst_only_provider "markdown" = Some "myst_parser" ∧
  "myst_parser" ∈ extensions.
Proof.
  split; [reflexivity |]. split; [reflexivity |].
  apply (proj2 (proj2 (proj2
           (extensions_provide_suffix_parsers myst_only_provider eq_refl eq_refl)))
           ".md" "markdown"); reflexivity.
Defined.

(** ** Further properties of the module body *)

Lemma dom_conf_globals : dom conf_globals = list_to_set conf_names.
Proof. reflexivity. Qed.


Lemma conf_globals_Some (name : string) :
  name ∈ conf_names → is_Some (conf_globals !! name).
Proof.
  intros H. apply elem_of_dom. rewrite dom_conf_globals.
  by rewrite elem_of_list_to_set.
Qed.

Lemma exec_conf_py_ok (ns0 ns : namespace) :
  exec_block conf_py ns0 = Ok ns → ns = conf_globals ∪ ns0.
Proof. rewrite exec_conf_py. congruence. Qed.



(** X2: the value the module gives to a name it assigns does not depend
    on the namespace it is evaluated in: any earlier binding of the name
    is overridden, and the name is bound afterwards. *)
Theorem conf_py_overrides_assigned_names
    (ns0 ns0' ns ns' : namespace) (name : string) :
  exec_block conf_py ns0 = Ok ns →
  exec_block conf_py ns0' = Ok ns' →
  name ∈ conf_names →
  is_Some (ns !! name) ∧ ns !! name = ns' !! name.
Proof.
  intros ->%exec_conf_py_ok ->%exec_conf_py_ok Hname.
  destruct (conf_globals_Some name Hname) as [v Hv].
  by rewrite !(lookup_union_Some_l _ _ _ v Hv).
Qed.

Lemma conf_py_overrides_assigned_names_witness :
  is_Some ((conf_globals ∪ sample_namespace) !! "project") ∧
  (conf_globals ∪ sample_namespace) !! "project" =
  (conf_globals ∪ (∅ : namespace)) !! "project".
Proof.
  apply (conf_py_overrides_assigned_names sample_namespace ∅).
  - apply exec_conf_py.
  - apply exec_conf_py.
  - by_evaluation.
Defined.

(** X3: evaluating the module again in the namespace it produced changes
    nothing. *)
Theorem conf_py_idempotent (ns0 ns : namespace) :
  exec_block conf_py ns0 = Ok ns →
  exec_block conf_py ns = Ok ns.
Proof.
  intros ->%exec_conf_py_ok. rewrite exec_conf_py.
  by rewrite (assoc_L (∪)), (idemp_L (∪)).
Qed.

Lemma conf_py_idempotent_witness :
  exec_block conf_py (conf_globals ∪ sample_namespace) =
  Ok (conf_globals ∪ sample_namespace).
Proof. apply (conf_py_idempotent sample_namespace). apply exec_conf_py. Defined.

(** *** The order of the assignments *)

Lemma conf_py_assign_all : conf_py = assign_all conf_bindings.
Proof. reflexivity. Qed.

Lemma conf_bindings_names : conf_bindings.*1 = conf_names.
Proof. reflexivity. Qed.

Lemma NoDup_conf_names : NoDup conf_names.
Proof. by_evaluation. Qed.

(** Assignments to pairwise distinct names amount to laying the map of the
    pairs over the namespace. *)
Lemma exec_assign_all (bs : list (string * pyval)) (ns0 : namespace) :
  NoDup bs.*1 →
  exec_block (assign_all bs) ns0 = Ok (list_to_map bs ∪ ns0).
Proof.
  revert ns0. induction bs as [|[name v] bs IH]; intros ns0 Hnodup.
  - simpl. by rewrite (left_id_L ∅ (∪)).
  - apply NoDup_cons in Hnodup as [Hname Hnodup].
    change (exec_block (assign_all ((name, v) :: bs)) ns0)
      with (exec_block (assign_all bs) (<[name := v]> ns0)).
    rewrite IH by done. f_equal.
    rewrite list_to_map_cons, <- insert_union_l.
    by rewrite insert_union_r by by apply not_elem_of_list_to_map_1.
Qed.

(** X4: no name is assigned twice and no right-hand side reads a name, so
    the assignments of the module can be written in any order: every
    rearrangement of the module body evaluates to the same namespace. *)
Theorem conf_py_order_irrelevant (body : list stmt) (ns0 : namespace) :
  body ≡ₚ conf_py →
  exec_block body ns0 = exec_block conf_py ns0.
Proof.
  rewrite conf_py_assign_all. intros Hperm.
  apply Permutation_map_inv in Hperm as (bs & -> & Hbs).
  pose proof NoDup_conf_names as Hnodup. rewrite <- conf_bindings_names in Hnodup.
  change (map (λ b : string * pyval, assign b.1 b.2) bs) with (assign_all bs).
  rewrite !exec_assign_all; [| done | by rewrite <- Hbs].
  f_equal. f_equal. symmetry. by apply list_to_map_proper.
Qed.

Lemma conf_py_order_irrelevant_witness :
  exec_block (rev conf_py) sample_namespace = exec_block conf_py sample_namespace.
Proof.
  apply conf_py_order_irrelevant. symmetry. apply Permutation_rev.
Defined.

(** ** Further properties of the link-check patterns *)

Lemma string_prefix_append (p s tail : string) :
  String.prefix p s = true → String.prefix p (s +:+ tail) = true.
Proof.
  rewrite !string_prefix_app. intros [rest ->]. exists (rest +:+ tail).
  clear. induction p as [|c p IH]; [done |].
  rewrite !append_String. congruence.
Qed.

(** X5: whatever is appended to an ignored URI (a port, a path, a query, a
    fragment, even text with line breaks), the URI stays ignored. *)
Theorem link_ignored_append (uri tail : string) :
  link_ignored uri = true → link_ignored (uri +:+ tail) = true.
Proof.
  rewrite !link_ignored_prefix, !orb_true_iff.
  intros [H | H]; [left | right]; by apply string_prefix_append.
Qed.

Lemma link_ignored_append_witness :
  link_ignored "http://localhost" = true ∧
  link_ignored ("http://localhost" +:+ ":8053/api/v1/health?verbose=1") = true.
Proof.
  split; [reflexivity |]. by apply link_ignored_append.
Defined.

(** X6: the two patterns do not overlap: whatever the URI, at most one
    pattern of the list matches it. *)
Theorem linkcheck_ignore_disjoint (uri : string) :
  (length (List.filter (fun p => Re.re_match p uri) linkcheck_ignore) ≤ 1)%nat.
Proof.
  unfold linkcheck_ignore. cbn [List.filter].
  rewrite re_match_localhost, re_match_loopback.
  destruct (String.prefix "http://localhost" uri) eqn:Hlocalhost.
  - apply string_prefix_app in Hlocalhost as [rest ->].
    change (String.prefix "http://127.0.0.1" ("http://localhost" +:+ rest))
      with false.
    simpl. lia.
  - destruct (String.prefix "http://127.0.0.1" uri); simpl; lia.
Qed.

Lemma string_prefix_substring (p s : string) (n : nat) :
  (String.length p ≤ n)%nat →
  String.prefix p (substring 0 n s) = String.prefix p s.
Proof.
  revert s n. induction p as [|c p IH]; intros s n Hn.
  - by destruct (substring 0 n s), s.
  - destruct n as [|n]; [simpl in Hn; lia |].
    destruct s as [|c' s]; [done |].
    simpl. destruct (ascii_dec c c'); [| done].
    apply IH. simpl in Hn. lia.
Qed.

(** X7: whether a URI is ignored is decided by its first sixteen
    characters alone (the scheme and the start of the host); nothing
    after them is looked at. *)
Theorem link_ignored_first_sixteen (uri : string) :
  link_ignored uri = link_ignored (substring 0 16 uri).
Proof.
  rewrite !link_ignored_prefix.
  by rewrite !string_prefix_substring by (simpl; lia).
Qed.
